(** * Query routing, aggregation and context formatting of the
      external-index retriever exercises

    A shallow embedding of

      - [exercise3_multi_source_news_aggregator.py]
      - [exercise4_hybrid_retrieval_system.py]
      - [exercise5_multilingual_knowledge_base.py]

    (directory [Practice Excercises/08_External_Index_Retrievers]).

    Python [str] values are modelled by [string]; one [ascii] stands for one
    character, so the model covers the texts whose code points are below
    256.  Python [int] is [Z].  A metadata [dict] is a [gmap string MetaVal].
    Calls to the external collaborators (language detector, retrievers and
    LLM chains) are threaded through a small trace-and-exception monad. *)

From Stdlib Require Import ZArith Ascii String List Lia.
From stdpp Require Import base option list gmap strings pretty.

(** ** Python builtins used by the three scripts *)

Module Py.

(** ["\n"] *)
Definition LF : string := String "010"%char "".

(** [len(s)] *)
Definition len (s : string) : Z := Z.of_nat (String.length s).

(** [c.isspace()] for a character below 256: TAB, LF, VT, FF, CR,
    FS, GS, RS, US, SPACE, NEL and NBSP. *)
Definition isspace (c : ascii) : bool :=
  match N_of_ascii c with
  | 9 | 10 | 11 | 12 | 13 | 28 | 29 | 30 | 31 | 32 | 133 | 160 => true
  | _ => false
  end%N.

(** [s.lstrip()] *)
Fixpoint lstrip (s : string) : string :=
  match s with
  | "" => ""
  | String c s' => if isspace c then lstrip s' else s
  end.

(** [s.rstrip()] *)
Fixpoint rstrip (s : string) : string :=
  match s with
  | "" => ""
  | String c s' =>
      match rstrip s' with
      | "" => if isspace c then "" else String c ""
      | r => String c r
      end
  end.

(** [s.strip()] *)
Definition strip (s : string) : string := rstrip (lstrip s).

(** [c.lower()] for a character below 256: A-Z and the accented capitals
    0xC0-0xDE (the multiplication sign 0xD7 apart) move up by 32. *)
Definition lower_char (c : ascii) : ascii :=
  let n := N_of_ascii c in
  if ((65 <=? n) && (n <=? 90)
      || (192 <=? n) && (n <=? 222) && negb (n =? 215))%N
  then ascii_of_N (n + 32) else c.

(** [s.lower()] *)
Fixpoint lower (s : string) : string :=
  match s with
  | "" => ""
  | String c s' => String (lower_char c) (lower s')
  end.

(** [s.startswith(p)] *)
Fixpoint startswith (p s : string) : bool :=
  match p, s with
  | "", _ => true
  | String _ _, "" => false
  | String a p', String b s' => if Ascii.eqb a b then startswith p' s' else false
  end.

(** [sub in s] on strings *)
Fixpoint contains (sub s : string) : bool :=
  startswith sub s ||
  match s with
  | "" => false
  | String _ s' => contains sub s'
  end.

(** The first [n] characters of [s] (all of [s] when it is shorter). *)
Fixpoint take (n : nat) (s : string) : string :=
  match n, s with
  | O, _ => ""
  | S _, "" => ""
  | S n', String c s' => String c (take n' s')
  end.

(** [s[:k]]: a negative [k] counts from the end, and the bound is clamped
    to [0 .. len(s)]. *)
Definition slice_to (s : string) (k : Z) : string :=
  let stop := if (k <? 0)%Z then Z.max 0 (len s + k) else k in
  take (Z.to_nat stop) s.

(** [sep.join(parts)] *)
Fixpoint join (sep : string) (parts : list string) : string :=
  match parts with
  | [] => ""
  | [p] => p
  | p :: rest => p +:+ sep +:+ join sep rest
  end.

(** [str(i)] for an [int] *)
Definition str_of_int (z : Z) : string := pretty z.

End Py.

(** ** Documents *)

(** A metadata value: the retrievers store strings (title, source, URL) and
    integers (page numbers). *)
Inductive MetaVal :=
| MStr (s : string)
| MInt (z : Z).

(** Truth value of a metadata value, as [or] tests it. *)
Definition truthy (v : MetaVal) : bool :=
  match v with
  | MStr s => negb (String.eqb s "")
  | MInt z => negb (z =? 0)%Z
  end.

(** [str(v)], as an f-string field renders it. *)
Definition str_of (v : MetaVal) : string :=
  match v with
  | MStr s => s
  | MInt z => Py.str_of_int z
  end.

(** [langchain_core.documents.Document] *)
Record Document := mkDocument {
  page_content : string;
  metadata : gmap string MetaVal
}.

(** [doc.metadata.get(key) or rest]: a missing key gives [None], which is
    falsy like [""] and [0]. *)
Definition get_or (doc : Document) (key : string) (rest : MetaVal) : MetaVal :=
  match metadata doc !! key with
  | Some v => if truthy v then v else rest
  | None => rest
  end.

(** ** Context formatting *)

(** The three statements that [format_docs] of exercises 4 and 5 share:
[[
    content = doc.page_content.strip()
    if len(content) > max_chars:
        content = content[: max_chars - 3] + "..."
]] *)
Definition truncated_content (doc : Document) (max_chars : Z) : string :=
  let content := Py.strip (page_content doc) in
  if (Py.len content >? max_chars)%Z
  then Py.slice_to content (max_chars - 3) +:+ "..."
  else content.

(** [f"[{title}]\n{content}"] *)
Definition block (title content : string) : string :=
  "[" +:+ title +:+ "]" +:+ Py.LF +:+ content.

Definition plain (text : string) : Document := mkDocument text ∅.

(** ** External collaborators and their effects *)

(** An exception instance (of a class derived from [Exception]), by the
    name of its class. *)
Inductive PyException := Exc (class_name : string).

(** The retriever objects the scripts construct, with the keyword
    arguments they pass. *)
Inductive Retriever :=
| ArxivRetriever (load_max_docs : Z)
| TavilySearchAPIRetriever (k : Z) (search_type : string)
| WikipediaRetriever (top_k_results : Z) (lang : string).

(** The LLM chains [prompt | llm | StrOutputParser()], one per prompt
    template of the scripts.  Invoking any of them calls [ChatOpenAI]. *)
Inductive Chain :=
| QueryClassifierChain      (* exercise 4, build_query_classifier_chain *)
| MultilingualAnswerChain   (* exercise 5, build_multilingual_answer_chain *)
| MultiSourceNewsPrompt.    (* exercise 3, the prompt | llm | parser tail *)

(** A call that leaves the process. *)
Inductive Event :=
| Detect (text : string)
| Retrieve (r : Retriever) (query : string)
| Generate (c : Chain) (inputs : list (string * string)).

Inductive Outcome (A : Type) :=
| Returned (a : A)
| Raised (e : PyException).
Arguments Returned {A} a.
Arguments Raised {A} e.

(** A computation: the calls it made, in order, and how it ended. *)
Definition Run (A : Type) : Type := list Event * Outcome A.

Definition trace {A} (m : Run A) : list Event := fst m.
Definition outcome {A} (m : Run A) : Outcome A := snd m.

#[global] Instance run_ret : MRet Run := λ A a, ([], Returned a).

#[global] Instance run_bind : MBind Run := λ A B f m,
  match snd m with
  | Returned a => ((fst m ++ fst (f a))%list, snd (f a))
  | Raised e => (fst m, Raised e)
  end.

(** [try: body except Exception: handler] *)
Definition try_except {A} (body : Run A) (handler : PyException → Run A) : Run A :=
  match snd body with
  | Returned a => body
  | Raised e => ((fst body ++ fst (handler e))%list, snd (handler e))
  end.

(** Is a [Generate] call among the events? *)
Definition is_generate (ev : Event) : bool :=
  match ev with
  | Generate _ _ => true
  | _ => false
  end.

Definition generative_backend_invoked (t : list Event) : bool :=
  existsb is_generate t.

(** What the outside world answers.  Every collaborator is called at most
    once per run with any given argument, so a function is enough. *)
Record Collaborators := mkCollaborators {
  detect : string → Outcome string;
  retriever_invoke : Retriever → string → Outcome (list Document);
  chain_invoke : Chain → list (string * string) → Outcome string
}.

Definition call_detect (W : Collaborators) (text : string) : Run string :=
  ([Detect text], detect W text).

Definition call_retriever (W : Collaborators) (r : Retriever) (query : string)
  : Run (list Document) :=
  ([Retrieve r query], retriever_invoke W r query).

Definition call_chain (W : Collaborators) (c : Chain) (inputs : list (string * string))
  : Run string :=
  ([Generate c inputs], chain_invoke W c inputs).

(** [RunnableParallel.invoke]: every step is submitted to the executor and
    runs; the results are then collected in key order, so the first step in
    key order that raised decides the exception.  The events of the steps
    are listed in key order. *)
Fixpoint runnable_parallel (steps : list (string * Run string))
  : Run (list (string * string)) :=
  match steps with
  | [] => ([], Returned [])
  | (key, step) :: rest =>
      let others := runnable_parallel rest in
      ((fst step ++ fst others)%list,
       match snd step with
       | Raised e => Raised e
       | Returned v =>
           match snd others with
           | Raised e => Raised e
           | Returned vs => Returned ((key, v) :: vs)
           end
       end)
  end.

(** ** Exercise 3: multi-source news aggregator *)

Module Exercise3.

Definition title_of (i : nat) (doc : Document) : string :=
  str_of
    (get_or doc "title"
       (get_or doc "source"
          (MStr ("Source " +:+ Py.str_of_int (Z.of_nat i))))).

Fixpoint format_parts (i : nat) (docs : list Document) : list string :=
  match docs with
  | [] => []
  | doc :: rest =>
      block (title_of i doc) (page_content doc) :: format_parts (S i) rest
  end.

Definition format_docs (docs : list Document) : string :=
  Py.join (Py.LF +:+ Py.LF) (format_parts 1 docs).

Definition tavily_retriever : Retriever := TavilySearchAPIRetriever 5 "news".
Definition wiki_retriever : Retriever := WikipediaRetriever 3 "en".

Section Chain.
Variable W : Collaborators.

(** [retriever | format_docs] *)
Definition retrieve_and_format (r : Retriever) (topic : string) : Run string :=
  docs ← call_retriever W r topic;
  mret (format_docs docs).

(** [build_multi_source_news_chain().invoke(topic)] *)
Definition build_multi_source_news_chain (topic : string) : Run string :=
  inputs ← runnable_parallel
             [ ("topic", mret topic);
               ("news_context", retrieve_and_format tavily_retriever topic);
               ("wiki_context", retrieve_and_format wiki_retriever topic) ];
  call_chain W MultiSourceNewsPrompt inputs.

End Chain.

End Exercise3.

(** ** Exercise 4: hybrid retrieval system *)

Module Exercise4.

Definition title_of (i : nat) (doc : Document) : string :=
  str_of
    (get_or doc "title"
       (get_or doc "source"
          (get_or doc "page"
             (MStr ("Result " +:+ Py.str_of_int (Z.of_nat i)))))).

(** The loop of [format_docs]: [parts] in the order of [docs], [i] the
    running index of [enumerate]. *)
Fixpoint format_parts (i : nat) (docs : list Document) (max_chars : Z)
  : list string :=
  match docs with
  | [] => []
  | doc :: rest =>
      block (title_of i doc) (truncated_content doc max_chars)
        :: format_parts (S i) rest max_chars
  end.

Definition format_docs (docs : list Document) (max_chars : Z) : string :=
  Py.join (Py.LF +:+ Py.LF) (format_parts 1 docs max_chars).

(** The default of the keyword argument. *)
Definition default_max_chars : Z := 800.

Definition get_retriever_for_type (query_type : string) : Retriever :=
  if String.eqb query_type "academic" then ArxivRetriever 3
  else if String.eqb query_type "current_events" then
    TavilySearchAPIRetriever 5 "news"
  else WikipediaRetriever 3 "en".

Section Flow.
Variable W : Collaborators.

Definition classify_query (query : string) : Run string :=
  out ← call_chain W QueryClassifierChain [("query", query)];
  let raw := Py.lower (Py.strip out) in
  if Py.contains "academic" raw then mret "academic"
  else if Py.contains "current_events" raw
          || Py.contains "current" raw
          || Py.contains "news" raw then mret "current_events"
  else if Py.contains "general" raw then mret "general"
  else mret "general".

Definition hybrid_retrieve (query : string) : Run string :=
  query_type ← classify_query query;
  let retriever := get_retriever_for_type query_type in
  docs ← call_retriever W retriever query;
  match docs with
  | [] =>
      mret ("Query type: " +:+ query_type +:+ Py.LF +:+
            "No results found from the selected source.")
  | _ =>
      let context := format_docs docs default_max_chars in
      let header := "Query type: " +:+ query_type +:+ Py.LF +:+ "Selected source: " in
      let header :=
        if String.eqb query_type "academic" then
          header +:+ "arXiv (academic papers)" +:+ Py.LF
        else if String.eqb query_type "current_events" then
          header +:+ "Tavily (current news/web)" +:+ Py.LF
        else
          header +:+ "Wikipedia (general knowledge)" +:+ Py.LF in
      mret (header +:+ Py.LF +:+ context)
  end.

End Flow.

End Exercise4.

(** ** Exercise 5: multilingual knowledge base *)

Module Exercise5.

Definition title_of (i : nat) (doc : Document) : string :=
  str_of (get_or doc "title" (MStr ("Source " +:+ Py.str_of_int (Z.of_nat i)))).

Fixpoint format_parts (i : nat) (docs : list Document) (max_chars : Z)
  : list string :=
  match docs with
  | [] => []
  | doc :: rest =>
      block (title_of i doc) (truncated_content doc max_chars)
        :: format_parts (S i) rest max_chars
  end.

Definition format_docs (docs : list Document) (max_chars : Z) : string :=
  Py.join (Py.LF +:+ Py.LF) (format_parts 1 docs max_chars).

Definition default_max_chars : Z := 1000.

Definition mapping : gmap string string :=
  list_to_map
    [ ("en", "English"); ("es", "Spanish"); ("fr", "French");
      ("de", "German"); ("hi", "Hindi"); ("pt", "Portuguese");
      ("it", "Italian"); ("nl", "Dutch"); ("sv", "Swedish");
      ("ru", "Russian"); ("zh-cn", "Chinese (Simplified)");
      ("zh-tw", "Chinese (Traditional)"); ("ja", "Japanese");
      ("ko", "Korean") ].

Definition language_name_from_code (lang_code : string) : string :=
  default "the same language as the question" (mapping !! Py.lower lang_code).

Definition supported : gset string :=
  list_to_set ["en"; "es"; "fr"; "de"; "hi"; "pt"; "it"; "nl"; "sv"; "ru"; "ja"; "ko"].

Definition get_wikipedia_retriever (lang_code : string) : Retriever :=
  let wiki_lang := if bool_decide (lang_code ∈ supported) then lang_code else "en" in
  WikipediaRetriever 3 wiki_lang.

Section Flow.
Variable W : Collaborators.

Definition detect_query_language (query : string) : Run string :=
  try_except
    (lang_code ← call_detect W query;
     mret lang_code)
    (λ _, mret "en").

Definition answer_query_multilingual (query : string) : Run string :=
  lang_code ← detect_query_language query;
  let lang_name := language_name_from_code lang_code in
  let retriever := get_wikipedia_retriever lang_code in
  docs ← call_retriever W retriever query;
  match docs with
  | [] =>
      mret ("[Detected language: " +:+ lang_code +:+ " (" +:+ lang_name +:+ ")]" +:+ Py.LF +:+
            "No relevant Wikipedia articles were found for this query.")
  | _ =>
      let context := format_docs docs default_max_chars in
      answer ← call_chain W MultilingualAnswerChain
                 [ ("context", context);
                   ("question", query);
                   ("target_language", lang_name) ];
      let header :=
        "[Detected language: " +:+ lang_code +:+ " (" +:+ lang_name +:+ ")]" +:+ Py.LF in
      mret (header +:+ Py.LF +:+ answer)
  end.

End Flow.

End Exercise5.

(** ** Runs of [format_docs] against the object store *)

(** Python hands [docs] and its [Document]s over by reference: what the
    function could read or write besides its arguments is the store of the
    caller's objects.  A run takes the store it starts from and gives the
    store it leaves together with its result; [None] stands for a reference
    to no object, which Python does not produce. *)
Definition Stateful (A : Type) : Type :=
  gmap nat Document → gmap nat Document * option A.

Definition st_ret {A} (a : A) : Stateful A := λ h, (h, Some a).

Definition st_bind {A B} (m : Stateful A) (f : A → Stateful B) : Stateful B :=
  λ h, match m h with
       | (h', Some a) => f a h'
       | (h', None) => (h', None)
       end.

(** Reading the object behind a reference. *)
Definition deref (l : nat) : Stateful Document := λ h, (h, h !! l).

Module Exercise4Run.

(** The loop of [format_docs]; [parts] is the local list, extended by
    [parts.append] in each round. *)
Fixpoint format_loop (i : nat) (docs : list nat) (max_chars : Z) (parts : list string)
  : Stateful (list string) :=
  match docs with
  | [] => st_ret parts
  | l :: rest =>
      st_bind (deref l) (λ doc,
        format_loop (S i) rest max_chars
          (parts ++ [block (Exercise4.title_of i doc) (truncated_content doc max_chars)]))
  end.

Definition format_docs (docs : list nat) (max_chars : Z) : Stateful string :=
  st_bind (format_loop 1 docs max_chars [])
    (λ parts, st_ret (Py.join (Py.LF +:+ Py.LF) parts)).

End Exercise4Run.

Module Exercise5Run.

Fixpoint format_loop (i : nat) (docs : list nat) (max_chars : Z) (parts : list string)
  : Stateful (list string) :=
  match docs with
  | [] => st_ret parts
  | l :: rest =>
      st_bind (deref l) (λ doc,
        format_loop (S i) rest max_chars
          (parts ++ [block (Exercise5.title_of i doc) (truncated_content doc max_chars)]))
  end.

Definition format_docs (docs : list nat) (max_chars : Z) : Stateful string :=
  st_bind (format_loop 1 docs max_chars [])
    (λ parts, st_ret (Py.join (Py.LF +:+ Py.LF) parts)).

End Exercise5Run.


(** ** Vocabulary of the properties *)

(** The labels the classifier prompt of exercise 4 declares. *)
Definition categories : list string := ["academic"; "general"; "current_events"].

(** Every character of [s] passes the test [P]. *)
Fixpoint all_chars (P : ascii → bool) (s : string) : bool :=
  match s with
  | "" => true
  | String c s' => P c && all_chars P s'
  end.

(** A keyword of [classify_query]: not empty, free of whitespace, and in
    lower case already. *)
Definition is_keyword (kw : string) : bool :=
  negb (String.eqb kw "")
  && all_chars (λ c, negb (Py.isspace c)) kw
  && all_chars (λ c, Ascii.eqb (Py.lower_char c) c) kw.


(** The language a result of [answer_query_multilingual] records: the code
    right after the opening of its header line. *)
Definition records_language (lang text : string) : bool :=
  Py.startswith ("[Detected language: " +:+ lang +:+ " (") text.

(** The generation step of a flow: a call of an LLM chain that writes an
    answer.  The call of the query classifier is the classification step. *)
Definition is_generation_step (ev : Event) : bool :=
  match ev with
  | Generate QueryClassifierChain _ => false
  | Generate _ _ => true
  | _ => false
  end.

Definition generation_step_invoked (t : list Event) : bool :=
  existsb is_generation_step t.

(** ** Scenarios *)

(** Scenario A: the classifier answers [current_events] and no retriever
    finds anything. *)
Definition scenario_A : Collaborators :=
  mkCollaborators (λ _, Returned "en") (λ _ _, Returned [])
    (λ _ _, Returned "current_events").

(** Scenario B: the detector answers the unsupported code [xx]. *)
Definition scenario_B : Collaborators :=
  mkCollaborators (λ _, Returned "xx")
    (λ _ _, Returned [plain "Alan Turing was a mathematician."])
    (λ _ _, Returned "A mathematician.").

(** Scenario C: the news retriever returns three records and every other
    retriever times out. *)
Definition scenario_C : Collaborators :=
  mkCollaborators (λ _, Returned "en")
    (λ r _, match r with
            | TavilySearchAPIRetriever _ _ =>
                Returned [plain "one"; plain "two"; plain "three"]
            | _ => Raised (Exc "TimeoutError")
            end)
    (λ _ _, Returned "summary").

(** The news retriever fails and the others return one record. *)
Definition news_down : Collaborators :=
  mkCollaborators (λ _, Returned "en")
    (λ r _, match r with
            | TavilySearchAPIRetriever _ _ => Raised (Exc "HTTPError")
            | _ => Returned [plain "background"]
            end)
    (λ _ _, Returned "summary").

(** The detector fails; the classifier gives an answer with no keyword. *)
Definition detector_down : Collaborators :=
  mkCollaborators (λ _, Raised (Exc "LangDetectException")) (λ _ _, Returned [])
    (λ _ _, Returned "I am not sure.").

(** The classifier names two categories at once; the detector answers a
    code that has a name but no Wikipedia setting in the script. *)
Definition two_labels : Collaborators :=
  mkCollaborators (λ _, Returned "zh-cn") (λ _ _, Returned [])
    (λ _ _, Returned " News, or maybe ACADEMIC? ").

(** * Properties *)

(** ** Strings *)

Section StringFacts.

#[local] Arguments String.append !_ _ / : simpl nomatch.


Lemma app_assoc (a b c : string) : (a +:+ b) +:+ c = a +:+ b +:+ c.
Proof. induction a as [|x a IH]; simpl; [done | by rewrite IH]. Qed.

Lemma length_app (a b : string) :
  String.length (a +:+ b) = String.length a + String.length b.
Proof. induction a as [|x a IH]; simpl; [done | by rewrite IH]. Qed.

Lemma len_app (a b : string) : Py.len (a +:+ b) = (Py.len a + Py.len b)%Z.
Proof. unfold Py.len. rewrite length_app. lia. Qed.

Lemma length_take (n : nat) (s : string) :
  String.length (Py.take n s) = n `min` String.length s.
Proof.
  revert s. induction n as [|n IH]; intros [|c s]; simpl; try done.
  by rewrite IH.
Qed.

Lemma take_all (n : nat) (s : string) :
  String.length s ≤ n → Py.take n s = s.
Proof.
  revert s. induction n as [|n IH]; intros [|c s]; simpl; try done; try lia.
  intros Hle. rewrite IH; [done | lia].
Qed.

(** A slice with a stop inside the string has exactly that many
    characters. *)
Lemma len_slice_to (s : string) (k : Z) :
  (0 ≤ k ≤ Py.len s)%Z → Py.len (Py.slice_to s k) = k.
Proof.
  intros [H0 Hk]. unfold Py.slice_to.
  destruct (Z.ltb_spec k 0) as [Hneg|_]; [lia|].
  unfold Py.len in *. rewrite length_take. lia.
Qed.

Lemma slice_to_nonneg (s : string) (k : Z) :
  (0 ≤ k)%Z → Py.slice_to s k = Py.take (Z.to_nat k) s.
Proof.
  intros H0. unfold Py.slice_to.
  destruct (Z.ltb_spec k 0) as [Hneg|_]; [lia | done].
Qed.

Lemma length_lstrip (s : string) :
  String.length (Py.lstrip s) ≤ String.length s.
Proof.
  induction s as [|c s IH]; simpl; [done|].
  destruct (Py.isspace c); simpl; lia.
Qed.

Lemma length_rstrip (s : string) :
  String.length (Py.rstrip s) ≤ String.length s.
Proof.
  induction s as [|c s IH]; simpl; [done|].
  destruct (Py.rstrip s) as [|d r]; [destruct (Py.isspace c)|]; simpl in *; lia.
Qed.

(** Stripping never makes a text longer. *)
Lemma len_strip (s : string) : (Py.len (Py.strip s) ≤ Py.len s)%Z.
Proof.
  unfold Py.len, Py.strip.
  pose proof (length_rstrip (Py.lstrip s)). pose proof (length_lstrip s). lia.
Qed.

Lemma startswith_app (p s : string) : Py.startswith p (p +:+ s) = true.
Proof.
  induction p as [|c p IH]; simpl; [done|].
  by rewrite Ascii.eqb_refl.
Qed.

Lemma startswith_inv (p s : string) :
  Py.startswith p s = true → ∃ post, s = p +:+ post.
Proof.
  revert s. induction p as [|c p IH]; intros s; simpl.
  - intros _. by exists s.
  - destruct s as [|d s]; [done|].
    destruct (Ascii.eqb_spec c d) as [->|]; [|done].
    intros [post ->]%IH. by exists post.
Qed.

Lemma contains_intro (sub pre post : string) :
  Py.contains sub (pre +:+ sub +:+ post) = true.
Proof.
  induction pre as [|c pre IH]; simpl.
  - destruct (sub +:+ post) eqn:E; simpl; rewrite <- E, startswith_app; done.
  - rewrite IH. apply orb_true_r.
Qed.

Lemma contains_inv (sub s : string) :
  Py.contains sub s = true → ∃ pre post, s = pre +:+ sub +:+ post.
Proof.
  induction s as [|c s IH]; simpl.
  - rewrite orb_false_r. intros [post ->]%startswith_inv. by exists "", post.
  - intros [H|H]%orb_true_iff.
    + apply startswith_inv in H as [post ->]. by exists "", post.
    + destruct (IH H) as (pre & post & ->). by exists (String c pre), post.
Qed.

(** [sub in s] holds exactly when [sub] occurs in [s]. *)
Lemma contains_spec (sub s : string) :
  Py.contains sub s = true ↔ ∃ pre post, s = pre +:+ sub +:+ post.
Proof.
  split; [apply contains_inv|]. intros (pre & post & ->). apply contains_intro.
Qed.


End StringFacts.

(** ** The definitions on small inputs *)

Example strip_both_ends : Py.strip ("  a b " +:+ Py.LF) = "a b".
Proof. reflexivity. Qed.

Example slice_negative_stop : Py.slice_to "abcdef" (-1) = "abcde".
Proof. reflexivity. Qed.

Example slice_clamped : Py.slice_to "abc" (-8) = "" ∧ Py.slice_to "abc" 7 = "abc".
Proof. split; reflexivity. Qed.

Example lower_keeps_underscore : Py.lower "Current_Events" = "current_events".
Proof. reflexivity. Qed.

Example page_zero_is_falsy :
  Exercise4.title_of 4 (mkDocument "x" {[ "page" := MInt 0 ]}) = "Result 4"
  ∧ Exercise4.title_of 4 (mkDocument "x" {[ "page" := MInt 7 ]}) = "7".
Proof. split; vm_compute; reflexivity. Qed.

Example ex4_two :
  Exercise4.format_docs
    [mkDocument "  hello world  " {[ "title" := MStr "T" ]}; plain "abcdefgh"] 5
  = "[T]" +:+ Py.LF +:+ "he..." +:+ Py.LF +:+ Py.LF +:+ "[Result 2]" +:+ Py.LF +:+ "ab...".
Proof. vm_compute. reflexivity. Qed.

(** ** Context formatting (exercises 4 and 5) *)

Section Formatting.

#[local] Arguments String.append !_ _ / : simpl nomatch.

Lemma truncated_content_short (doc : Document) (max_chars : Z) :
  (Py.len (Py.strip (page_content doc)) ≤ max_chars)%Z →
  truncated_content doc max_chars = Py.strip (page_content doc).
Proof.
  intros Hle. unfold truncated_content.
  destruct (Z.gtb_spec (Py.len (Py.strip (page_content doc))) max_chars); [lia | done].
Qed.

Lemma truncated_content_long (doc : Document) (max_chars : Z) :
  (3 ≤ max_chars)%Z →
  (Py.len (Py.strip (page_content doc)) > max_chars)%Z →
  truncated_content doc max_chars
    = Py.take (Z.to_nat (max_chars - 3)) (Py.strip (page_content doc)) +:+ "..."
  ∧ Py.len (truncated_content doc max_chars) = max_chars.
Proof.
  intros H3 Hgt. unfold truncated_content.
  destruct (Z.gtb_spec (Py.len (Py.strip (page_content doc))) max_chars); [|lia].
  split.
  - by rewrite slice_to_nonneg by lia.
  - rewrite len_app, len_slice_to by lia. change (Py.len "...") with 3%Z. lia.
Qed.

Lemma format_parts4_lookup (i0 : nat) (docs : list Document) (max_chars : Z)
    (i : nat) (doc : Document) :
  docs !! i = Some doc →
  Exercise4.format_parts i0 docs max_chars !! i
    = Some (block (Exercise4.title_of (i0 + i) doc) (truncated_content doc max_chars)).
Proof.
  revert i0 i. induction docs as [|d docs IH]; intros i0 i; [done|].
  destruct i as [|i]; simpl.
  - intros [= ->]. by rewrite Nat.add_0_r.
  - intros Hi. rewrite (IH (S i0) i Hi). by rewrite Nat.add_succ_r.
Qed.

Lemma format_parts5_lookup (i0 : nat) (docs : list Document) (max_chars : Z)
    (i : nat) (doc : Document) :
  docs !! i = Some doc →
  Exercise5.format_parts i0 docs max_chars !! i
    = Some (block (Exercise5.title_of (i0 + i) doc) (truncated_content doc max_chars)).
Proof.
  revert i0 i. induction docs as [|d docs IH]; intros i0 i; [done|].
  destruct i as [|i]; simpl.
  - intros [= ->]. by rewrite Nat.add_0_r.
  - intros Hi. rewrite (IH (S i0) i Hi). by rewrite Nat.add_succ_r.
Qed.

(** One part per record, in the order of the records. *)
Lemma format_parts4_length (i0 : nat) (docs : list Document) (max_chars : Z) :
  length (Exercise4.format_parts i0 docs max_chars) = length docs.
Proof. revert i0. induction docs as [|d docs IH]; intros i0; simpl; [done | by rewrite IH]. Qed.

Lemma format_parts5_length (i0 : nat) (docs : list Document) (max_chars : Z) :
  length (Exercise5.format_parts i0 docs max_chars) = length docs.
Proof. revert i0. induction docs as [|d docs IH]; intros i0; simpl; [done | by rewrite IH]. Qed.

End Formatting.




(** C10, as stated, fails for a budget below 3: [max_chars - 3] is then
    negative and the slice counts from the end of the text.  With budget 2
    the text [abcdef] is truncated to [abcde...], eight characters. *)
Lemma truncation_length_counterexample :
  (Py.len (Py.strip "abcdef") > 2)%Z
  ∧ truncated_content (plain "abcdef") 2 = "abcde..."
  ∧ Py.len (truncated_content (plain "abcdef") 2) ≠ 2%Z
  ∧ Exercise4.format_docs [plain "abcdef"] 2 = "[Result 1]" +:+ Py.LF +:+ "abcde..."
  ∧ Exercise5.format_docs [plain "abcdef"] 2 = "[Source 1]" +:+ Py.LF +:+ "abcde...".
Proof. vm_compute. repeat split; congruence. Qed.

(** C10, amended.  In [format_docs] (exercise 4 and exercise 5) the length
    check is made on the stripped content; a record whose stripped content
    has length at most [max_chars], and so one of length exactly
    [max_chars], is emitted unmodified; and with [max_chars] at least 3, a
    truncated content is [max_chars - 3] characters and the three-character
    marker, of length exactly [max_chars]. *)
Theorem truncation_boundary (docs : list Document) (max_chars : Z)
    (i : nat) (doc : Document) :
  docs !! i = Some doc →
  let content := Py.strip (page_content doc) in
  ∃ emitted,
    Exercise4.format_parts 1 docs max_chars !! i
      = Some (block (Exercise4.title_of (S i) doc) emitted)
    ∧ Exercise5.format_parts 1 docs max_chars !! i
      = Some (block (Exercise5.title_of (S i) doc) emitted)
    ∧ (Py.len content = max_chars → emitted = content)
    ∧ ((Py.len content ≤ max_chars)%Z → emitted = content)
    ∧ ((Py.len content > max_chars)%Z → (3 ≤ max_chars)%Z →
       emitted = Py.take (Z.to_nat (max_chars - 3)) content +:+ "..."
       ∧ Py.len (Py.take (Z.to_nat (max_chars - 3)) content) = (max_chars - 3)%Z
       ∧ Py.len emitted = max_chars).
Proof.
  intros Hi content. exists (truncated_content doc max_chars).
  split; [exact (format_parts4_lookup 1 docs max_chars i doc Hi)|].
  split; [exact (format_parts5_lookup 1 docs max_chars i doc Hi)|].
  split; [|split].
  - intros E. apply truncated_content_short. fold content. lia.
  - apply truncated_content_short.
  - intros Hgt H3. destruct (truncated_content_long doc max_chars H3 Hgt) as [E L].
    split; [exact E|]. split; [|exact L].
    rewrite <- (slice_to_nonneg (Py.strip (page_content doc))) by lia.
    apply len_slice_to. fold content. lia.
Qed.

Lemma truncation_boundary_witness :
  ∃ emitted,
    Exercise4.format_parts 1 [plain " abcde "] 5 !! 0%nat
      = Some (block "Result 1" emitted)
    ∧ emitted = "abcde".
Proof.
  destruct (truncation_boundary [plain " abcde "] 5 0 (plain " abcde ") eq_refl)
    as (emitted & H4 & _ & Heq & _).
  exists emitted. split; [exact H4 | exact (Heq eq_refl)].
Defined.

Section Purity.

Variable h : gmap nat Document.



End Purity.



(** ** Query classification and retriever dispatch (exercise 4) *)

Section Normalisation.

#[local] Arguments String.append !_ _ / : simpl nomatch.

Lemma lower_app (a b : string) : Py.lower (a +:+ b) = Py.lower a +:+ Py.lower b.
Proof. induction a as [|c a IH]; simpl; [done | by rewrite IH]. Qed.

Lemma lower_fixed (kw : string) :
  all_chars (λ c, Ascii.eqb (Py.lower_char c) c) kw = true → Py.lower kw = kw.
Proof.
  induction kw as [|c kw IH]; simpl; [done|].
  intros [Hc Hkw]%andb_true_iff. apply Ascii.eqb_eq in Hc. by rewrite Hc, IH.
Qed.

Lemma rstrip_app_nonspace (a b : string) :
  all_chars (λ c, negb (Py.isspace c)) a = true →
  Py.rstrip (a +:+ b) = a +:+ Py.rstrip b.
Proof.
  induction a as [|c a IH]; simpl; [done|].
  intros [Hc Ha]%andb_true_iff. rewrite (IH Ha).
  apply negb_true_iff in Hc. rewrite Hc.
  by destruct (a +:+ Py.rstrip b).
Qed.

Lemma rstrip_app_nonempty (pre x : string) :
  Py.rstrip x ≠ "" → Py.rstrip (pre +:+ x) = pre +:+ Py.rstrip x.
Proof.
  intros Hx. induction pre as [|c pre IH]; simpl; [done|].
  rewrite IH. destruct (pre +:+ Py.rstrip x) eqn:E; [|done].
  destruct pre; simpl in E; [done | discriminate].
Qed.

Lemma lstrip_keeps (kw pre post : string) :
  kw ≠ "" → all_chars (λ c, negb (Py.isspace c)) kw = true →
  ∃ pre', Py.lstrip (pre +:+ kw +:+ post) = pre' +:+ kw +:+ post.
Proof.
  intros Hne Hkw. induction pre as [|c pre IH]; simpl.
  - exists "". destruct kw as [|k kw]; [done|]. simpl in *.
    apply andb_true_iff in Hkw as [Hk _]. apply negb_true_iff in Hk. by rewrite Hk.
  - destruct (Py.isspace c); [exact IH|]. by exists (String c pre).
Qed.

(** Stripping and lowering keep every occurrence of a keyword. *)
Lemma keyword_survives (kw out : string) :
  is_keyword kw = true →
  Py.contains kw out = true →
  Py.contains kw (Py.lower (Py.strip out)) = true.
Proof.
  unfold is_keyword. intros [[Hne Hsp]%andb_true_iff Hlow]%andb_true_iff.
  apply negb_true_iff, String.eqb_neq in Hne.
  intros (pre & post & ->)%contains_inv. unfold Py.strip.
  destruct (lstrip_keeps kw pre post Hne Hsp) as [pre' ->].
  assert (Py.rstrip (kw +:+ post) = kw +:+ Py.rstrip post) as E
    by by apply rstrip_app_nonspace.
  rewrite rstrip_app_nonempty, E.
  - rewrite !lower_app, (lower_fixed kw Hlow). apply contains_intro.
  - rewrite E. destruct kw; [done | discriminate].
Qed.

End Normalisation.

Section Classification.

Variable W : Collaborators.

(** What [classify_query] does once the classifier chain has answered: one
    call of the chain, and a label by the cascade of substring tests. *)
Lemma classify_query_returns (query out : string) :
  chain_invoke W QueryClassifierChain [("query", query)] = Returned out →
  ∃ c, Exercise4.classify_query W query
         = ([Generate QueryClassifierChain [("query", query)]], Returned c)
       ∧ c ∈ categories.
Proof.
  intros Hout. unfold Exercise4.classify_query, mbind, run_bind, call_chain. simpl.
  rewrite Hout. unfold categories.
  repeat match goal with |- context [if ?b then _ else _] => destruct b end;
    simpl; eexists; (split; [reflexivity | set_solver]).
Qed.

(** A failure of the classifier chain is not caught. *)
Lemma classify_query_raises (query : string) (e : PyException) :
  chain_invoke W QueryClassifierChain [("query", query)] = Raised e →
  outcome (Exercise4.classify_query W query) = Raised e.
Proof.
  intros Hout. unfold Exercise4.classify_query, mbind, run_bind, call_chain, outcome.
  simpl. by rewrite Hout.
Qed.

End Classification.

(** C5.  For every string the classifier chain returns, [classify_query]
    returns, and what it returns is one of ["academic"], ["general"] and
    ["current_events"]; it is ["general"] when no keyword occurs in the
    stripped, lower-cased output. *)
Theorem classify_query_closed (W : Collaborators) (query out : string) :
  chain_invoke W QueryClassifierChain [("query", query)] = Returned out →
  ∃ c, outcome (Exercise4.classify_query W query) = Returned c
       ∧ c ∈ categories
       ∧ (∀ c', outcome (Exercise4.classify_query W query) = Returned c' → c' = c)
       ∧ (let raw := Py.lower (Py.strip out) in
          Py.contains "academic" raw = false →
          Py.contains "current_events" raw = false →
          Py.contains "current" raw = false →
          Py.contains "news" raw = false →
          Py.contains "general" raw = false →
          c = "general").
Proof.
  intros Hout.
  destruct (classify_query_returns W query out Hout) as (c & Hrun & Hc).
  exists c. rewrite Hrun. repeat split; [done | by intros c' [= ->] |].
  intros raw Ha Hce Hcu Hn Hg.
  unfold Exercise4.classify_query, mbind, run_bind, call_chain in Hrun. simpl in Hrun.
  rewrite Hout in Hrun. fold raw in Hrun.
  rewrite Ha, Hce, Hcu, Hn, Hg in Hrun. simpl in Hrun. congruence.
Qed.

Lemma classify_query_closed_witness :
  ∃ c, outcome (Exercise4.classify_query detector_down "What is a monad?") = Returned c
       ∧ c ∈ categories
       ∧ c = "general".
Proof.
  destruct (classify_query_closed detector_down "What is a monad?" "I am not sure." eq_refl)
    as (c & Hc & Hin & _ & Hdefault).
  exists c. split; [exact Hc|]. split; [exact Hin|].
  apply Hdefault; reflexivity.
Defined.

(** C6.  The label is decided by a fixed order of tests on the stripped,
    lower-cased output: ["academic"] first, then ["current_events"],
    ["current"] or ["news"], then ["general"].  So an output that contains
    ["academic"] is labelled ["academic"] whatever else it contains, and
    one that contains a current-events keyword is labelled
    ["current_events"] unless ["academic"] occurs too. *)
Theorem classify_query_precedence (W : Collaborators) (query out : string) :
  chain_invoke W QueryClassifierChain [("query", query)] = Returned out →
  let raw := Py.lower (Py.strip out) in
  let result := outcome (Exercise4.classify_query W query) in
  (Py.contains "academic" raw = true → result = Returned "academic")
  ∧ (Py.contains "academic" raw = false →
     Py.contains "current_events" raw || Py.contains "current" raw
       || Py.contains "news" raw = true →
     result = Returned "current_events")
  ∧ (Py.contains "academic" raw = false →
     Py.contains "current_events" raw || Py.contains "current" raw
       || Py.contains "news" raw = false →
     result = Returned "general")
  ∧ (Py.contains "academic" out = true → result = Returned "academic")
  ∧ (Py.contains "academic" raw = false →
     Py.contains "current_events" out = true ∨ Py.contains "current" out = true
       ∨ Py.contains "news" out = true →
     result = Returned "current_events").
Proof.
  intros Hout raw result.
  assert (Hrun : result =
    if Py.contains "academic" raw then Returned "academic"
    else if Py.contains "current_events" raw || Py.contains "current" raw
            || Py.contains "news" raw then Returned "current_events"
    else Returned "general").
  { unfold result, outcome, Exercise4.classify_query, mbind, run_bind, call_chain.
    simpl. rewrite Hout. fold raw.
    repeat match goal with |- context [if ?b then _ else _] => destruct b end; done. }
  rewrite Hrun. repeat split.
  - by intros ->.
  - by intros -> ->.
  - by intros -> ->.
  - intros Hin. unfold raw. by rewrite (keyword_survives "academic" out eq_refl Hin).
  - intros -> Hany.
    assert (Py.contains "current_events" raw || Py.contains "current" raw
            || Py.contains "news" raw = true) as ->; [|done].
    unfold raw. destruct Hany as [H|[H|H]].
    + by rewrite (keyword_survives "current_events" out eq_refl H).
    + rewrite (keyword_survives "current" out eq_refl H). by rewrite orb_true_r.
    + rewrite (keyword_survives "news" out eq_refl H). by rewrite !orb_true_r.
Qed.

Lemma classify_query_precedence_witness :
  outcome (Exercise4.classify_query two_labels "q") = Returned "academic".
Proof.
  apply (proj1 (classify_query_precedence two_labels "q" " News, or maybe ACADEMIC? "
                  eq_refl)).
  vm_compute. reflexivity.
Defined.

(** C7.  [get_retriever_for_type] is defined on every label: ["academic"]
    gives [ArxivRetriever(load_max_docs=3)], ["current_events"] gives
    [TavilySearchAPIRetriever(k=5, search_type="news")], and every other
    label, ["general"] among them, gives
    [WikipediaRetriever(top_k_results=3, lang="en")]; each declared category
    has exactly one configuration. *)
Theorem get_retriever_for_type_total :
  Exercise4.get_retriever_for_type "academic" = ArxivRetriever 3
  ∧ Exercise4.get_retriever_for_type "current_events" = TavilySearchAPIRetriever 5 "news"
  ∧ Exercise4.get_retriever_for_type "general" = WikipediaRetriever 3 "en"
  ∧ (∀ query_type, query_type ≠ "academic" → query_type ≠ "current_events" →
       Exercise4.get_retriever_for_type query_type = WikipediaRetriever 3 "en")
  ∧ (∀ c, c ∈ categories →
       ∃ r, Exercise4.get_retriever_for_type c = r
            ∧ ∀ r', Exercise4.get_retriever_for_type c = r' → r' = r).
Proof.
  repeat split; try reflexivity.
  - intros qt Ha Hc. unfold Exercise4.get_retriever_for_type.
    apply String.eqb_neq in Ha, Hc. by rewrite Ha, Hc.
  - intros c _. eexists. split; [reflexivity | by intros r' <-].
Qed.

Lemma get_retriever_for_type_total_witness :
  Exercise4.get_retriever_for_type "sports" = WikipediaRetriever 3 "en".
Proof.
  apply (proj1 (proj2 (proj2 (proj2 get_retriever_for_type_total)))); discriminate.
Defined.

(** ** The multilingual flow (exercise 5) *)

Section Multilingual.

Variable W : Collaborators.

Lemma detect_query_language_run (query : string) :
  Exercise5.detect_query_language W query
  = ([Detect query],
     match detect W query with
     | Returned lang_code => Returned lang_code
     | Raised _ => Returned "en"
     end).
Proof.
  unfold Exercise5.detect_query_language, try_except, mbind, run_bind, call_detect.
  simpl. by destruct (detect W query).
Qed.

(** The header line of a result, for the code that was detected. *)
Lemma header_prefix (lang_code rest : string) :
  records_language lang_code
    ("[Detected language: " +:+ lang_code +:+ " (" +:+ rest) = true.
Proof.
  unfold records_language.
  rewrite <- (app_assoc "[Detected language: " lang_code (" (" +:+ rest)).
  rewrite <- (app_assoc ("[Detected language: " +:+ lang_code) " (" rest).
  rewrite (app_assoc "[Detected language: " lang_code " (").
  apply startswith_app.
Qed.

End Multilingual.

(** C9.  When the language detector raises, [detect_query_language] returns
    ["en"]; and whatever the detector does, [detect_query_language] does
    not raise. *)
Theorem detect_query_language_fallback (W : Collaborators) (query : string)
    (e : PyException) :
  detect W query = Raised e →
  Exercise5.detect_query_language W query = ([Detect query], Returned "en")
  ∧ ∀ W' query' e', outcome (Exercise5.detect_query_language W' query') ≠ Raised e'.
Proof.
  intros He. split.
  - by rewrite detect_query_language_run, He.
  - intros W' query' e'. rewrite detect_query_language_run. unfold outcome. simpl.
    by destruct (detect W' query').
Qed.

Lemma detect_query_language_fallback_witness :
  Exercise5.detect_query_language detector_down "12345" = ([Detect "12345"], Returned "en").
Proof.
  apply (detect_query_language_fallback detector_down "12345"
           (Exc "LangDetectException") eq_refl).
Defined.

(** C1, as stated, fails.  With the detected code ["xx"] the retriever is
    the English one, but the returned text records ["xx"], not ["en"]. *)
Lemma unsupported_language_counterexample :
  detect scenario_B "Who is Alan Turing?" = Returned "xx"
  ∧ ("xx" ∉ Exercise5.supported)
  ∧ Exercise5.answer_query_multilingual scenario_B "Who is Alan Turing?"
    = ([Detect "Who is Alan Turing?";
        Retrieve (WikipediaRetriever 3 "en") "Who is Alan Turing?";
        Generate MultilingualAnswerChain
          [("context", "[Source 1]" +:+ Py.LF +:+ "Alan Turing was a mathematician.");
           ("question", "Who is Alan Turing?");
           ("target_language", "the same language as the question")]],
       Returned ("[Detected language: xx (the same language as the question)]"
                 +:+ Py.LF +:+ Py.LF +:+ "A mathematician."))
  ∧ records_language "en"
      ("[Detected language: xx (the same language as the question)]"
       +:+ Py.LF +:+ Py.LF +:+ "A mathematician.") = false
  ∧ records_language "xx"
      ("[Detected language: xx (the same language as the question)]"
       +:+ Py.LF +:+ Py.LF +:+ "A mathematician.") = true.
Proof.
  split; [reflexivity|]. split; [by vm_compute|].
  split; [|split]; vm_compute; reflexivity.
Qed.

(** C1, amended.  For every query whose detected language code is not in
    the supported set, [answer_query_multilingual] retrieves through a
    [WikipediaRetriever] with [lang="en"], and through no other retriever;
    the language recorded in the returned text is the detected code, with
    the name [language_name_from_code] gives it. *)
Theorem unsupported_language_routing (W : Collaborators) (query lang_code : string) :
  detect W query = Returned lang_code →
  lang_code ∉ Exercise5.supported →
  let run := Exercise5.answer_query_multilingual W query in
  (∃ rest, trace run
           = [Detect query; Retrieve (WikipediaRetriever 3 "en") query] ++ rest
         ∧ ∀ r q, Retrieve r q ∉ rest)
  ∧ (∀ text, outcome run = Returned text →
       records_language lang_code text = true
       ∧ Py.startswith
           ("[Detected language: " +:+ lang_code +:+ " (" +:+
            Exercise5.language_name_from_code lang_code +:+ ")]" +:+ Py.LF) text = true).
Proof.
  intros Hdet Hsup run. unfold run, Exercise5.answer_query_multilingual.
  unfold mbind at 1, run_bind at 1. rewrite detect_query_language_run, Hdet. simpl.
  unfold Exercise5.get_wikipedia_retriever.
  rewrite (bool_decide_eq_false_2 _ Hsup).
  unfold mbind, run_bind, call_retriever, call_chain, trace, outcome. simpl.
  destruct (retriever_invoke W (WikipediaRetriever 3 "en") query) as [[|d docs]|e]; simpl.
  - split.
    + exists []. split; [done | intros r q; apply not_elem_of_nil].
    + intros text [= <-]. split; [apply header_prefix|].
      rewrite <- !app_assoc. apply startswith_app.
  - destruct (chain_invoke W MultilingualAnswerChain _) as [answer|e]; simpl.
    + split.
      * eexists. split; [reflexivity|]. intros r q [=]%list_elem_of_singleton.
      * intros text [= <-]. split.
        -- rewrite !app_assoc. apply header_prefix.
        -- apply startswith_app.
    + split; [|done].
      eexists. split; [reflexivity|]. intros r q [=]%list_elem_of_singleton.
  - split; [|done]. exists []. split; [done | intros r q; apply not_elem_of_nil].
Qed.

Lemma unsupported_language_routing_witness :
  ∃ rest,
    trace (Exercise5.answer_query_multilingual two_labels "q")
    = [Detect "q"; Retrieve (WikipediaRetriever 3 "en") "q"] ++ rest
    ∧ ∀ r q, Retrieve r q ∉ rest.
Proof.
  apply (unsupported_language_routing two_labels "q" "zh-cn" eq_refl).
  vm_compute. intros H. inversion H.
Defined.

(** ** Empty retrievals (exercises 4 and 5) *)

(** [hybrid_retrieve] has no generation step: whatever the collaborators
    do, the only LLM call it can make is the classification. *)
Lemma hybrid_retrieve_has_no_generation_step (W : Collaborators) (query : string) :
  generation_step_invoked (trace (Exercise4.hybrid_retrieve W query)) = false.
Proof.
  unfold Exercise4.hybrid_retrieve, Exercise4.classify_query.
  unfold mbind, run_bind, call_chain, call_retriever, trace. simpl.
  destruct (chain_invoke W QueryClassifierChain [("query", query)]) as [out|e];
    [|reflexivity].
  repeat match goal with |- context [if ?b then _ else _] => destruct b end; simpl;
    match goal with |- context [retriever_invoke W ?r query] =>
      destruct (retriever_invoke W r query) as [[|d docs]|e]
    end; reflexivity.
Qed.

(** C2.  When the selected retriever returns no document, both flows
    return a text that says that nothing was found, and the generation step
    is not run.  [answer_query_multilingual] makes no LLM call at all for
    the query; in [hybrid_retrieve] the one LLM call is the classification
    that selected the retriever, made before the retrieval. *)
Theorem no_results_short_circuit (W : Collaborators) (query : string) :
  (∀ lang_code,
     outcome (Exercise5.detect_query_language W query) = Returned lang_code →
     retriever_invoke W (Exercise5.get_wikipedia_retriever lang_code) query = Returned [] →
     Exercise5.answer_query_multilingual W query
     = ([Detect query; Retrieve (Exercise5.get_wikipedia_retriever lang_code) query],
        Returned ("[Detected language: " +:+ lang_code +:+ " (" +:+
                  Exercise5.language_name_from_code lang_code +:+ ")]" +:+ Py.LF +:+
                  "No relevant Wikipedia articles were found for this query."))
     ∧ generative_backend_invoked
         (trace (Exercise5.answer_query_multilingual W query)) = false)
  ∧ (∀ query_type,
       outcome (Exercise4.classify_query W query) = Returned query_type →
       retriever_invoke W (Exercise4.get_retriever_for_type query_type) query
         = Returned [] →
       Exercise4.hybrid_retrieve W query
       = ([Generate QueryClassifierChain [("query", query)];
           Retrieve (Exercise4.get_retriever_for_type query_type) query],
          Returned ("Query type: " +:+ query_type +:+ Py.LF +:+
                    "No results found from the selected source."))
       ∧ generation_step_invoked (trace (Exercise4.hybrid_retrieve W query)) = false).
Proof.
  split.
  - intros lang_code Hlang Hdocs.
    assert (Exercise5.answer_query_multilingual W query
            = ([Detect query; Retrieve (Exercise5.get_wikipedia_retriever lang_code) query],
               Returned ("[Detected language: " +:+ lang_code +:+ " (" +:+
                  Exercise5.language_name_from_code lang_code +:+ ")]" +:+ Py.LF +:+
                  "No relevant Wikipedia articles were found for this query."))) as E.
    { unfold Exercise5.answer_query_multilingual.
      unfold mbind at 1, run_bind at 1.
      rewrite detect_query_language_run in Hlang |- *. unfold outcome in Hlang.
      simpl in Hlang |- *. rewrite Hlang.
      unfold mbind, run_bind, call_retriever. simpl. by rewrite Hdocs. }
    by rewrite E.
  - intros query_type Hlabel Hdocs.
    split; [|apply hybrid_retrieve_has_no_generation_step].
    assert (Exercise4.classify_query W query
            = ([Generate QueryClassifierChain [("query", query)]], Returned query_type))
      as Hrun.
    { destruct (chain_invoke W QueryClassifierChain [("query", query)]) as [out|e] eqn:Hout.
      - destruct (classify_query_returns W query out Hout) as (c & Hc & _).
        rewrite Hc in Hlabel |- *. unfold outcome in Hlabel. simpl in Hlabel. congruence.
      - rewrite (classify_query_raises W query e Hout) in Hlabel. discriminate. }
    unfold Exercise4.hybrid_retrieve. unfold mbind at 1, run_bind at 1.
    rewrite Hrun. simpl.
    unfold mbind, run_bind, call_retriever. simpl. by rewrite Hdocs.
Qed.

Lemma no_results_short_circuit_witness :
  generative_backend_invoked
    (trace (Exercise5.answer_query_multilingual scenario_A "Who is Alan Turing?")) = false
  ∧ Exercise4.hybrid_retrieve scenario_A "Latest developments in AI regulation"
    = ([Generate QueryClassifierChain [("query", "Latest developments in AI regulation")];
        Retrieve (TavilySearchAPIRetriever 5 "news") "Latest developments in AI regulation"],
       Returned ("Query type: current_events" +:+ Py.LF +:+
                 "No results found from the selected source."))
  ∧ generation_step_invoked
      (trace (Exercise4.hybrid_retrieve scenario_A "Latest developments in AI regulation"))
    = false.
Proof.
  split.
  - apply (proj1 (no_results_short_circuit scenario_A "Who is Alan Turing?") "en");
      reflexivity.
  - apply (proj2 (no_results_short_circuit scenario_A
                    "Latest developments in AI regulation") "current_events");
      reflexivity.
Defined.

(** ** The multi-source chain (exercise 3) *)

Section MultiSource.

Variable W : Collaborators.

(** The parts of exercise 3 keep the records whole and in order. *)
Lemma format_parts3_lookup (i0 : nat) (docs : list Document) (i : nat) (doc : Document) :
  docs !! i = Some doc →
  Exercise3.format_parts i0 docs !! i
    = Some (block (Exercise3.title_of (i0 + i) doc) (page_content doc)).
Proof.
  revert i0 i. induction docs as [|d docs IH]; intros i0 i; [done|].
  destruct i as [|i]; simpl.
  - intros [= ->]. by rewrite Nat.add_0_r.
  - intros Hi. rewrite (IH (S i0) i Hi). by rewrite Nat.add_succ_r.
Qed.

(** The run of the chain, by what the two retrievers do. *)
Lemma build_multi_source_news_chain_run (topic : string) :
  Exercise3.build_multi_source_news_chain W topic
  = match retriever_invoke W Exercise3.tavily_retriever topic,
          retriever_invoke W Exercise3.wiki_retriever topic with
    | Returned news, Returned wiki =>
        ([Retrieve Exercise3.tavily_retriever topic;
          Retrieve Exercise3.wiki_retriever topic;
          Generate MultiSourceNewsPrompt
            [("topic", topic);
             ("news_context", Exercise3.format_docs news);
             ("wiki_context", Exercise3.format_docs wiki)]],
         chain_invoke W MultiSourceNewsPrompt
            [("topic", topic);
             ("news_context", Exercise3.format_docs news);
             ("wiki_context", Exercise3.format_docs wiki)])
    | Raised e, _ | Returned _, Raised e =>
        ([Retrieve Exercise3.tavily_retriever topic;
          Retrieve Exercise3.wiki_retriever topic],
         Raised e)
    end.
Proof.
  unfold Exercise3.build_multi_source_news_chain, Exercise3.retrieve_and_format.
  unfold mbind, run_bind, call_retriever, call_chain. simpl.
  destruct (retriever_invoke W Exercise3.tavily_retriever topic);
    destruct (retriever_invoke W Exercise3.wiki_retriever topic); reflexivity.
Qed.

End MultiSource.

(** C4, as stated, fails.  The news retriever returns three records and
    the Wikipedia retriever raises a timeout: the invocation of the chain
    raises that timeout, and the LLM is not called. *)
Lemma single_source_failure_counterexample :
  retriever_invoke scenario_C Exercise3.tavily_retriever "AI regulation"
    = Returned [plain "one"; plain "two"; plain "three"]
  ∧ retriever_invoke scenario_C Exercise3.wiki_retriever "AI regulation"
    = Raised (Exc "TimeoutError")
  ∧ Exercise3.build_multi_source_news_chain scenario_C "AI regulation"
  = ([Retrieve (TavilySearchAPIRetriever 5 "news") "AI regulation";
      Retrieve (WikipediaRetriever 3 "en") "AI regulation"],
     Raised (Exc "TimeoutError"))
  ∧ generative_backend_invoked
      (trace (Exercise3.build_multi_source_news_chain scenario_C "AI regulation")) = false.
Proof. vm_compute. repeat split; reflexivity. Qed.

(** C4, amended.  In the chain of exercise 3 the two retrievers feed two
    separate contexts.  When both return, each context is the text of that
    retriever's records, whole and in their order, and the LLM is invoked on
    the topic and the two contexts.  When either retriever raises, the
    invocation of the chain raises the same exception and the LLM is not
    invoked. *)
Theorem single_source_failure_propagates (W : Collaborators) (topic : string) :
  let run := Exercise3.build_multi_source_news_chain W topic in
  (∀ e, retriever_invoke W Exercise3.tavily_retriever topic = Raised e →
     outcome run = Raised e ∧ generative_backend_invoked (trace run) = false)
  ∧ (∀ news e,
       retriever_invoke W Exercise3.tavily_retriever topic = Returned news →
       retriever_invoke W Exercise3.wiki_retriever topic = Raised e →
       outcome run = Raised e ∧ generative_backend_invoked (trace run) = false)
  ∧ (∀ news wiki,
       retriever_invoke W Exercise3.tavily_retriever topic = Returned news →
       retriever_invoke W Exercise3.wiki_retriever topic = Returned wiki →
       outcome run
       = chain_invoke W MultiSourceNewsPrompt
           [("topic", topic);
            ("news_context", Py.join (Py.LF +:+ Py.LF) (Exercise3.format_parts 1 news));
            ("wiki_context", Py.join (Py.LF +:+ Py.LF) (Exercise3.format_parts 1 wiki))]
       ∧ generative_backend_invoked (trace run) = true
       ∧ (∀ i doc, news !! i = Some doc →
            Exercise3.format_parts 1 news !! i
            = Some (block (Exercise3.title_of (S i) doc) (page_content doc)))
       ∧ (∀ i doc, wiki !! i = Some doc →
            Exercise3.format_parts 1 wiki !! i
            = Some (block (Exercise3.title_of (S i) doc) (page_content doc)))).
Proof.
  intros run. unfold run. rewrite build_multi_source_news_chain_run.
  split; [|split].
  - intros e He. by rewrite He.
  - intros news e Hnews He. by rewrite Hnews, He.
  - intros news wiki Hnews Hwiki. rewrite Hnews, Hwiki.
    split; [done|]. split; [done|].
    split; intros i doc Hi; by apply (format_parts3_lookup 1).
Qed.

Lemma single_source_failure_propagates_witness :
  outcome (Exercise3.build_multi_source_news_chain news_down "AI regulation")
  = Raised (Exc "HTTPError").
Proof.
  apply (proj1 (single_source_failure_propagates news_down "AI regulation")
           (Exc "HTTPError") eq_refl).
Defined.

(** * Further properties of the three scripts *)

(** ** The formatted context *)

Section MoreFormatting.

#[local] Arguments String.append !_ _ / : simpl nomatch.

Lemma block_nonempty (title content : string) : block title content ≠ "".
Proof. unfold block. simpl. discriminate. Qed.

Lemma join_cons2 (sep p q : string) (rest : list string) :
  Py.join sep (p :: q :: rest) = p +:+ sep +:+ Py.join sep (q :: rest).
Proof. reflexivity. Qed.

Lemma join_cons_nonempty (sep p : string) (rest : list string) :
  p ≠ "" → Py.join sep (p :: rest) ≠ "".
Proof.
  intros Hp. destruct rest as [|q rest]; [done|].
  rewrite join_cons2. destruct p; [done | simpl; discriminate].
Qed.





Lemma take_prefix (n : nat) (s : string) : ∃ rest, s = Py.take n s +:+ rest.
Proof.
  revert s. induction n as [|n IH]; intros s.
  - by exists s.
  - destruct s as [|c s]; [by exists ""|].
    destruct (IH s) as [rest E]. exists rest. simpl. by rewrite <- E.
Qed.





End MoreFormatting.

(** X1.  The formatted context is the empty string exactly when there is no
    record, in each of the three scripts. *)
Theorem format_docs_empty_iff (docs : list Document) (max_chars : Z) :
  (Exercise3.format_docs docs = "" ↔ docs = [])
  ∧ (Exercise4.format_docs docs max_chars = "" ↔ docs = [])
  ∧ (Exercise5.format_docs docs max_chars = "" ↔ docs = []).
Proof.
  destruct docs as [|d docs]; [done|].
  repeat split; try done; intros E; exfalso;
    by apply (join_cons_nonempty _ _ _ (block_nonempty _ _)) in E.
Qed.


(** X3.  Whatever the budget, the content emitted for a record is either
    the whole stripped text or a prefix of it followed by the marker; the
    marker is there whenever something was cut. *)
Theorem truncation_is_marked (doc : Document) (max_chars : Z) :
  let content := Py.strip (page_content doc) in
  ((Py.len content ≤ max_chars)%Z ∧ truncated_content doc max_chars = content)
  ∨ ((Py.len content > max_chars)%Z
     ∧ ∃ kept rest, content = kept +:+ rest
                    ∧ truncated_content doc max_chars = kept +:+ "...").
Proof.
  intros content. unfold truncated_content. fold content.
  destruct (Z.gtb_spec (Py.len content) max_chars) as [Hgt|Hle].
  - right. split; [lia|]. unfold Py.slice_to.
    destruct (take_prefix
      (Z.to_nat (if (max_chars - 3 <? 0)%Z
                 then Z.max 0 (Py.len content + (max_chars - 3))
                 else (max_chars - 3)%Z)) content) as [rest E].
    eexists _, rest. split; [exact E | reflexivity].
  - left. split; [lia | done].
Qed.

(** X4.  With a budget of at least 3, the content emitted for a record is
    never longer than the budget, and never longer than the text of the
    record. *)
Theorem truncated_content_bounded (doc : Document) (max_chars : Z) :
  (3 ≤ max_chars)%Z →
  (Py.len (truncated_content doc max_chars) ≤ max_chars)%Z
  ∧ (Py.len (truncated_content doc max_chars) ≤ Py.len (page_content doc))%Z.
Proof.
  intros H3. pose proof (len_strip (page_content doc)) as Hs.
  destruct (Z.le_gt_cases (Py.len (Py.strip (page_content doc))) max_chars) as [Hle|Hgt].
  - rewrite (truncated_content_short doc max_chars Hle). lia.
  - destruct (truncated_content_long doc max_chars H3) as [_ L]; lia.
Qed.

Lemma truncated_content_bounded_witness :
  (Py.len (truncated_content (plain "  a long abstract  ") 10) ≤ 10)%Z.
Proof.
  apply (truncated_content_bounded (plain "  a long abstract  ") 10). lia.
Defined.


(** ** The hybrid flow (exercise 4) *)

Section MoreHybrid.

Variable W : Collaborators.

(** [hybrid_retrieve], once the label is known. *)
Lemma hybrid_retrieve_run (query query_type : string) :
  outcome (Exercise4.classify_query W query) = Returned query_type →
  Exercise4.classify_query W query
    = ([Generate QueryClassifierChain [("query", query)]], Returned query_type)
  ∧ query_type ∈ categories.
Proof.
  intros Hlabel.
  destruct (chain_invoke W QueryClassifierChain [("query", query)]) as [out|e] eqn:Hout.
  - destruct (classify_query_returns W query out Hout) as (c & Hc & Hin).
    rewrite Hc in Hlabel |- *. unfold outcome in Hlabel. simpl in Hlabel.
    by injection Hlabel as <-.
  - rewrite (classify_query_raises W query e Hout) in Hlabel. discriminate.
Qed.

End MoreHybrid.

(** X6.  When the classifier chain answers with exactly one of the three
    labels, in any letter case and with any whitespace around it,
    [classify_query] returns that label. *)
Theorem classify_query_exact_label (W : Collaborators) (query out c : string) :
  chain_invoke W QueryClassifierChain [("query", query)] = Returned out →
  c ∈ categories →
  Py.lower (Py.strip out) = c →
  outcome (Exercise4.classify_query W query) = Returned c.
Proof.
  intros Hout Hc Hraw.
  unfold outcome, Exercise4.classify_query, mbind, run_bind, call_chain. simpl.
  rewrite Hout, Hraw. unfold categories in Hc.
  repeat (apply elem_of_cons in Hc as [->|Hc]); [reflexivity..|].
  by apply elem_of_nil in Hc.
Qed.

Lemma classify_query_exact_label_witness :
  outcome (Exercise4.classify_query
             (mkCollaborators (λ _, Returned "en") (λ _ _, Returned [])
                (λ _ _, Returned ("  Current_Events" +:+ Py.LF)))
             "Latest developments in AI regulation")
  = Returned "current_events".
Proof.
  apply (classify_query_exact_label _ _ ("  Current_Events" +:+ Py.LF));
    [reflexivity | | reflexivity].
  unfold categories. apply elem_of_cons. right. apply elem_of_cons. right.
  apply elem_of_cons. by left.
Defined.

(** X7.  A failure of either collaborator of [hybrid_retrieve] comes out as
    that exception: when the classifier chain raises, no retriever is
    called; when the retriever raises, nothing is returned in its place. *)
Theorem hybrid_retrieve_failures (W : Collaborators) (query : string)
    (e : PyException) :
  (chain_invoke W QueryClassifierChain [("query", query)] = Raised e →
     Exercise4.hybrid_retrieve W query
     = ([Generate QueryClassifierChain [("query", query)]], Raised e))
  ∧ (∀ query_type,
       outcome (Exercise4.classify_query W query) = Returned query_type →
       retriever_invoke W (Exercise4.get_retriever_for_type query_type) query = Raised e →
       Exercise4.hybrid_retrieve W query
       = ([Generate QueryClassifierChain [("query", query)];
           Retrieve (Exercise4.get_retriever_for_type query_type) query],
          Raised e)).
Proof.
  split.
  - intros Hout.
    unfold Exercise4.hybrid_retrieve, Exercise4.classify_query, mbind, run_bind, call_chain.
    simpl. by rewrite Hout.
  - intros query_type Hlabel Hdocs.
    destruct (hybrid_retrieve_run W query query_type Hlabel) as [Hrun _].
    unfold Exercise4.hybrid_retrieve. unfold mbind at 1, run_bind at 1.
    rewrite Hrun. simpl. unfold mbind, run_bind, call_retriever. simpl.
    by rewrite Hdocs.
Qed.

Lemma hybrid_retrieve_failures_witness :
  Exercise4.hybrid_retrieve scenario_C "A survey"
  = ([Generate QueryClassifierChain [("query", "A survey")];
      Retrieve (WikipediaRetriever 3 "en") "A survey"],
     Raised (Exc "TimeoutError")).
Proof.
  apply (proj2 (hybrid_retrieve_failures scenario_C "A survey" (Exc "TimeoutError"))
           "general"); reflexivity.
Defined.

(** X8.  When the retriever returns records, [hybrid_retrieve] returns the
    label, the name of the source and the formatted records, after one
    classifier call and one retrieval.  The source the header names is the
    one that was queried: arXiv for ["academic"], Tavily for
    ["current_events"], Wikipedia for ["general"]. *)
Theorem hybrid_retrieve_names_source (W : Collaborators) (query query_type : string)
    (d : Document) (docs : list Document) :
  outcome (Exercise4.classify_query W query) = Returned query_type →
  retriever_invoke W (Exercise4.get_retriever_for_type query_type) query
    = Returned (d :: docs) →
  ∃ retriever source,
    Exercise4.hybrid_retrieve W query
    = ([Generate QueryClassifierChain [("query", query)]; Retrieve retriever query],
       Returned ("Query type: " +:+ query_type +:+ Py.LF +:+ "Selected source: "
                 +:+ source +:+ Py.LF +:+ Py.LF
                 +:+ Exercise4.format_docs (d :: docs) 800))
    ∧ ((query_type = "academic" ∧ retriever = ArxivRetriever 3
        ∧ source = "arXiv (academic papers)")
       ∨ (query_type = "current_events" ∧ retriever = TavilySearchAPIRetriever 5 "news"
          ∧ source = "Tavily (current news/web)")
       ∨ (query_type = "general" ∧ retriever = WikipediaRetriever 3 "en"
          ∧ source = "Wikipedia (general knowledge)")).
Proof.
  intros Hlabel Hdocs.
  destruct (hybrid_retrieve_run W query query_type Hlabel) as [Hrun Hin].
  assert (∀ source,
    (("Query type: " +:+ query_type +:+ Py.LF +:+ "Selected source: ") +:+ source +:+ Py.LF)
      +:+ Py.LF +:+ Exercise4.format_docs (d :: docs) Exercise4.default_max_chars
    = "Query type: " +:+ query_type +:+ Py.LF +:+ "Selected source: "
        +:+ source +:+ Py.LF +:+ Py.LF +:+ Exercise4.format_docs (d :: docs) 800) as Hassoc.
  { intros source. by rewrite !app_assoc. }
  unfold Exercise4.hybrid_retrieve. unfold mbind at 1, run_bind at 1.
  rewrite Hrun. simpl. unfold mbind, run_bind, call_retriever. simpl.
  rewrite Hdocs. simpl.
  unfold categories in Hin.
  repeat (apply elem_of_cons in Hin as [->|Hin]); [| | |by apply elem_of_nil in Hin].
  - exists (ArxivRetriever 3), "arXiv (academic papers)".
    split; [|by left]. simpl. by rewrite Hassoc.
  - exists (WikipediaRetriever 3 "en"), "Wikipedia (general knowledge)".
    split; [|by right; right]. simpl. by rewrite Hassoc.
  - exists (TavilySearchAPIRetriever 5 "news"), "Tavily (current news/web)".
    split; [|by right; left]. simpl. by rewrite Hassoc.
Qed.

Lemma hybrid_retrieve_names_source_witness :
  ∃ retriever source,
    Exercise4.hybrid_retrieve news_down "AI news today"
    = ([Generate QueryClassifierChain [("query", "AI news today")];
        Retrieve retriever "AI news today"],
       Returned ("Query type: " +:+ "general" +:+ Py.LF +:+ "Selected source: "
                 +:+ source +:+ Py.LF +:+ Py.LF
                 +:+ Exercise4.format_docs [plain "background"] 800)).
Proof.
  destruct (hybrid_retrieve_names_source news_down "AI news today" "general"
              (plain "background") [] eq_refl eq_refl) as (r & s & E & _).
  exists r, s. exact E.
Defined.

(** ** The multilingual flow (exercise 5), further *)

Section MoreMultilingual.

Lemma lower_char_idempotent (c : ascii) :
  Py.lower_char (Py.lower_char c) = Py.lower_char c.
Proof. by destruct c as [[] [] [] [] [] [] [] []]. Qed.

Lemma lower_idempotent (s : string) : Py.lower (Py.lower s) = Py.lower s.
Proof.
  induction s as [|c s IH]; simpl; [done|].
  by rewrite lower_char_idempotent, IH.
Qed.

(** The members of the supported set, one by one. *)
Lemma supported_cases (lang_code : string) :
  lang_code ∈ Exercise5.supported →
  lang_code ∈ ["en"; "es"; "fr"; "de"; "hi"; "pt"; "it"; "nl"; "sv"; "ru"; "ja"; "ko"].
Proof. unfold Exercise5.supported. by rewrite elem_of_list_to_set. Qed.

(** [answer_query_multilingual], once the language is known. *)
Lemma answer_query_multilingual_run (W : Collaborators) (query : string) :
  let lang_code :=
    match detect W query with Returned code => code | Raised _ => "en" end in
  let lang_name := Exercise5.language_name_from_code lang_code in
  let retriever := Exercise5.get_wikipedia_retriever lang_code in
  let header :=
    "[Detected language: " +:+ lang_code +:+ " (" +:+ lang_name +:+ ")]" +:+ Py.LF in
  Exercise5.answer_query_multilingual W query
  = match retriever_invoke W retriever query with
    | Raised e => ([Detect query; Retrieve retriever query], Raised e)
    | Returned [] =>
        ([Detect query; Retrieve retriever query],
         Returned ("[Detected language: " +:+ lang_code +:+ " (" +:+ lang_name +:+ ")]"
                   +:+ Py.LF +:+
                   "No relevant Wikipedia articles were found for this query."))
    | Returned docs =>
        let inputs := [ ("context", Exercise5.format_docs docs 1000);
                        ("question", query);
                        ("target_language", lang_name) ] in
        ([Detect query; Retrieve retriever query; Generate MultilingualAnswerChain inputs],
         match chain_invoke W MultilingualAnswerChain inputs with
         | Returned answer => Returned (header +:+ Py.LF +:+ answer)
         | Raised e => Raised e
         end)
    end.
Proof.
  intros lang_code lang_name retriever header.
  unfold Exercise5.answer_query_multilingual. unfold mbind at 1, run_bind at 1.
  rewrite detect_query_language_run. simpl.
  assert (match detect W query with
          | Returned code => Returned code
          | Raised _ => Returned "en"
          end = Returned lang_code) as -> by (unfold lang_code; by destruct (detect W query)).
  unfold mbind, run_bind, call_retriever, call_chain. simpl.
  fold lang_name retriever.
  destruct (retriever_invoke W retriever query) as [[|d docs]|e]; simpl; [done| |done].
  by destruct (chain_invoke W MultilingualAnswerChain _).
Qed.

End MoreMultilingual.

(** X9.  The language setting [get_wikipedia_retriever] passes to Wikipedia
    is always one of the supported codes: a supported code is passed as it
    is, and anything else becomes ["en"]. *)
Theorem wikipedia_language_supported (lang_code : string) :
  ∃ wiki_lang,
    Exercise5.get_wikipedia_retriever lang_code = WikipediaRetriever 3 wiki_lang
    ∧ wiki_lang ∈ Exercise5.supported
    ∧ (lang_code ∈ Exercise5.supported → wiki_lang = lang_code)
    ∧ (lang_code ∉ Exercise5.supported → wiki_lang = "en").
Proof.
  unfold Exercise5.get_wikipedia_retriever.
  destruct (decide (lang_code ∈ Exercise5.supported)) as [Hin|Hout].
  - exists lang_code. rewrite (bool_decide_eq_true_2 _ Hin). by repeat split.
  - exists "en". rewrite (bool_decide_eq_false_2 _ Hout).
    split; [done|]. split; [by vm_compute|]. split; [|done].
    intros Hin. contradiction.
Qed.

Lemma wikipedia_language_supported_witness :
  ∃ wiki_lang,
    Exercise5.get_wikipedia_retriever "EN" = WikipediaRetriever 3 wiki_lang
    ∧ wiki_lang = "en".
Proof.
  destruct (wikipedia_language_supported "EN") as (l & E & _ & _ & Hfallback).
  exists l. split; [exact E|]. apply Hfallback. vm_compute. intros H. inversion H.
Defined.

(** X10.  Every supported code has a language name of its own in
    [language_name_from_code], so the vague name is only ever given for a
    code outside the supported set; and the name of a code does not depend
    on its letter case. *)
Theorem language_names_cover_supported (lang_code : string) :
  (lang_code ∈ Exercise5.supported →
     Exercise5.mapping !! lang_code
       = Some (Exercise5.language_name_from_code lang_code)
     ∧ Exercise5.language_name_from_code lang_code
       ≠ "the same language as the question")
  ∧ Exercise5.language_name_from_code (Py.lower lang_code)
    = Exercise5.language_name_from_code lang_code.
Proof.
  split.
  - intros Hin%supported_cases.
    repeat (apply elem_of_cons in Hin as [->|Hin]);
      [split; vm_compute; congruence..|].
    by apply elem_of_nil in Hin.
  - unfold Exercise5.language_name_from_code. by rewrite lower_idempotent.
Qed.

Lemma language_names_cover_supported_witness :
  Exercise5.language_name_from_code "hi" ≠ "the same language as the question".
Proof.
  apply (proj1 (language_names_cover_supported "hi")).
  vm_compute. reflexivity.
Defined.

(** X11.  When the language detector raises, [answer_query_multilingual]
    goes on as for an English question: it asks the English Wikipedia, the
    target language given to the LLM is English, and the text it returns
    opens with the header for [en (English)]. *)
Theorem detector_failure_means_english (W : Collaborators) (query : string)
    (e : PyException) :
  detect W query = Raised e →
  let run := Exercise5.answer_query_multilingual W query in
  (∃ rest, trace run = [Detect query; Retrieve (WikipediaRetriever 3 "en") query] ++ rest
           ∧ ∀ c inputs, Generate c inputs ∈ rest →
               ∃ context, inputs = [("context", context); ("question", query);
                                    ("target_language", "English")])
  ∧ (∀ text, outcome run = Returned text →
       Py.startswith ("[Detected language: en (English)]" +:+ Py.LF) text = true).
Proof.
  intros He run. unfold run. rewrite answer_query_multilingual_run, He.
  change (Exercise5.get_wikipedia_retriever "en") with (WikipediaRetriever 3 "en").
  change (Exercise5.language_name_from_code "en") with "English".
  destruct (retriever_invoke W (WikipediaRetriever 3 "en") query) as [[|d docs]|e'].
  - split.
    + exists []. split; [done|]. intros c inputs H. by apply elem_of_nil in H.
    + by intros text [= <-].
  - split.
    + eexists. split; [reflexivity|].
      intros c inputs [= -> ->]%list_elem_of_singleton. by eexists.
    + unfold outcome. cbn [snd].
      destruct (chain_invoke W MultilingualAnswerChain _) as [answer|e'']; [|done].
      intros text [= <-].
      apply (startswith_app ("[Detected language: en (English)]" +:+ Py.LF)
               (Py.LF +:+ answer)).
  - split; [|done].
    exists []. split; [done|]. intros c inputs H. by apply elem_of_nil in H.
Qed.

Lemma detector_failure_means_english_witness :
  Py.startswith ("[Detected language: en (English)]" +:+ Py.LF)
    ("[Detected language: en (English)]" +:+ Py.LF +:+
     "No relevant Wikipedia articles were found for this query.") = true.
Proof.
  apply (proj2 (detector_failure_means_english detector_down "12345"
                  (Exc "LangDetectException") eq_refl)).
  reflexivity.
Defined.

(** X12.  [answer_query_multilingual] calls the LLM at most once, and only
    on a context made of records the retriever returned for the query: the
    context is then not empty, the question is the query as it came, and the
    target language is the name of the detected code. *)
Theorem generation_is_grounded (W : Collaborators) (query : string)
    (c : Chain) (inputs : list (string * string)) :
  Generate c inputs ∈ trace (Exercise5.answer_query_multilingual W query) →
  ∃ lang_code d docs,
    outcome (Exercise5.detect_query_language W query) = Returned lang_code
    ∧ retriever_invoke W (Exercise5.get_wikipedia_retriever lang_code) query
      = Returned (d :: docs)
    ∧ c = MultilingualAnswerChain
    ∧ inputs = [ ("context", Exercise5.format_docs (d :: docs) 1000);
                 ("question", query);
                 ("target_language", Exercise5.language_name_from_code lang_code) ]
    ∧ Exercise5.format_docs (d :: docs) 1000 ≠ ""
    ∧ length (filter (λ ev, is_generate ev = true)
                (trace (Exercise5.answer_query_multilingual W query))) = 1.
Proof.
  rewrite answer_query_multilingual_run, detect_query_language_run.
  unfold outcome, trace. simpl.
  set (lang_code := match detect W query with Returned code => code | Raised _ => "en" end).
  assert (match detect W query with
          | Returned code => Returned code
          | Raised _ => Returned "en"
          end = Returned lang_code) as -> by (unfold lang_code; by destruct (detect W query)).
  destruct (retriever_invoke W (Exercise5.get_wikipedia_retriever lang_code) query)
    as [[|d docs]|e] eqn:Hdocs; simpl.
  - intros H. repeat (apply elem_of_cons in H as [[=]|H]). by apply elem_of_nil in H.
  - intros H. exists lang_code, d, docs.
    repeat (apply elem_of_cons in H as [H|H]); try discriminate.
    + injection H as -> ->. repeat split; try done.
      pose proof (format_docs_empty_iff (d :: docs) 1000) as (_ & _ & H5).
      intros E. by apply H5 in E.
    + by apply elem_of_nil in H.
  - intros H. repeat (apply elem_of_cons in H as [[=]|H]). by apply elem_of_nil in H.
Qed.

Lemma generation_is_grounded_witness :
  ∃ lang_code d docs,
    retriever_invoke scenario_B (Exercise5.get_wikipedia_retriever lang_code)
      "Who is Alan Turing?" = Returned (d :: docs)
    ∧ lang_code = "xx".
Proof.
  destruct (generation_is_grounded scenario_B "Who is Alan Turing?"
              MultilingualAnswerChain
              [ ("context", "[Source 1]" +:+ Py.LF +:+ "Alan Turing was a mathematician.");
                ("question", "Who is Alan Turing?");
                ("target_language", "the same language as the question") ])
    as (lang_code & d & docs & Hlang & Hdocs & _).
  - vm_compute. apply elem_of_cons. right. apply elem_of_cons. right.
    apply elem_of_cons. by left.
  - exists lang_code, d, docs. split; [exact Hdocs|].
    vm_compute in Hlang. by injection Hlang as <-.
Defined.

(** X13.  A failure of the retriever or of the answer chain comes out of
    [answer_query_multilingual] as that exception; after a failed retrieval
    the LLM is not called. *)
Theorem answer_query_multilingual_failures (W : Collaborators) (query lang_code : string)
    (e : PyException) :
  outcome (Exercise5.detect_query_language W query) = Returned lang_code →
  (retriever_invoke W (Exercise5.get_wikipedia_retriever lang_code) query = Raised e →
     Exercise5.answer_query_multilingual W query
     = ([Detect query; Retrieve (Exercise5.get_wikipedia_retriever lang_code) query],
        Raised e))
  ∧ (∀ d docs,
       retriever_invoke W (Exercise5.get_wikipedia_retriever lang_code) query
         = Returned (d :: docs) →
       chain_invoke W MultilingualAnswerChain
         [ ("context", Exercise5.format_docs (d :: docs) 1000);
           ("question", query);
           ("target_language", Exercise5.language_name_from_code lang_code) ]
         = Raised e →
       outcome (Exercise5.answer_query_multilingual W query) = Raised e).
Proof.
  rewrite detect_query_language_run. unfold outcome. simpl. intros Hlang.
  assert (match detect W query with Returned code => code | Raised _ => "en" end
          = lang_code) as Hcode by (destruct (detect W query); congruence).
  rewrite answer_query_multilingual_run, Hcode. split.
  - by intros ->.
  - intros d docs -> Hchain. simpl. by rewrite Hchain.
Qed.

Lemma answer_query_multilingual_failures_witness :
  Exercise5.answer_query_multilingual scenario_C "Who is Alan Turing?"
  = ([Detect "Who is Alan Turing?";
      Retrieve (WikipediaRetriever 3 "en") "Who is Alan Turing?"],
     Raised (Exc "TimeoutError")).
Proof.
  apply (proj1 (answer_query_multilingual_failures scenario_C "Who is Alan Turing?" "en"
                  (Exc "TimeoutError") eq_refl)).
  reflexivity.
Defined.

(** ** The multi-source chain (exercise 3), further *)

(** X14.  The chain of exercise 3 calls the LLM exactly when both
    retrievers return, also when they return nothing: there is no check for
    empty results, and the LLM is then given two empty contexts. *)
Theorem multi_source_has_no_empty_check (W : Collaborators) (topic : string) :
  let run := Exercise3.build_multi_source_news_chain W topic in
  (generative_backend_invoked (trace run) = true
   ↔ ∃ news wiki,
       retriever_invoke W Exercise3.tavily_retriever topic = Returned news
       ∧ retriever_invoke W Exercise3.wiki_retriever topic = Returned wiki)
  ∧ (retriever_invoke W Exercise3.tavily_retriever topic = Returned [] →
     retriever_invoke W Exercise3.wiki_retriever topic = Returned [] →
     run = ([Retrieve Exercise3.tavily_retriever topic;
             Retrieve Exercise3.wiki_retriever topic;
             Generate MultiSourceNewsPrompt
               [("topic", topic); ("news_context", ""); ("wiki_context", "")]],
            chain_invoke W MultiSourceNewsPrompt
               [("topic", topic); ("news_context", ""); ("wiki_context", "")])).
Proof.
  intros run. unfold run. rewrite build_multi_source_news_chain_run. split.
  - destruct (retriever_invoke W Exercise3.tavily_retriever topic) as [news|e];
      destruct (retriever_invoke W Exercise3.wiki_retriever topic) as [wiki|e'];
      simpl; split; try done; try by eauto.
    + by intros (? & ? & ? & ?).
    + by intros (? & ? & ? & ?).
    + by intros (? & ? & ? & ?).
  - by intros -> ->.
Qed.

Lemma multi_source_has_no_empty_check_witness :
  generative_backend_invoked
    (trace (Exercise3.build_multi_source_news_chain scenario_A "AI regulation")) = true.
Proof.
  apply (proj1 (multi_source_has_no_empty_check scenario_A "AI regulation")).
  exists [], []. split; reflexivity.
Defined.
